(** * BaseTokenLauncher: the deployment pipeline of [backend_app.py]

    A shallow embedding of [deploy_contract_backend] and [deploy_token].
    The Python code talks to a node through a [Web3] object, to the file
    system through [os.path.exists] / [open] / [json.load], and reports
    every outcome as a dictionary.  The embedding threads an explicit
    world through every external call and records each call, with its
    outcome, in a trace, so that statements such as "no nonce query was
    issued" are statements about that trace. *)

From Stdlib Require Import ZArith List String Ascii Bool Lia.
Import ListNotations.

Set Warnings "-register-all".

Local Open Scope string_scope.
Local Open Scope list_scope.
Local Open Scope Z_scope.

(** ** Python values *)

(** A Python [float]: a finite binary64 value [f_mant * 2 ^ f_exp], an
    infinity or a NaN. *)
Inductive pyfloat : Type :=
| FFinite (f_mant f_exp : Z)
| FInf (negative : bool)
| FNaN.

(** The values that [json.load] / [request.get_json] produce and that the
    code stores in dictionaries.  A [dict] keeps insertion order, hence the
    association list. *)
Inductive pyval : Type :=
| PyNone
| PyBool (b : bool)
| PyInt (z : Z)
| PyFloat (f : pyfloat)
| PyStr (s : string)
| PyList (l : list pyval)
| PyTuple (l : list pyval)
| PyDict (d : list (string * pyval)).

(** Python truthiness, as used by [if not x]. *)
Definition truthy (v : pyval) : bool :=
  match v with
  | PyNone => false
  | PyBool b => b
  | PyInt z => negb (z =? 0)
  | PyFloat (FFinite m _) => negb (m =? 0)
  | PyFloat _ => true
  | PyStr s => negb (s =? "")%string
  | PyList l | PyTuple l => match l with [] => false | _ => true end
  | PyDict d => match d with [] => false | _ => true end
  end.

(** [k in d] and [d[k]] / [d.get(k)] on the association list of a dict. *)
Fixpoint dict_lookup (k : string) (d : list (string * pyval)) : option pyval :=
  match d with
  | [] => None
  | (k', v) :: d' => if (k =? k')%string then Some v else dict_lookup k d'
  end.

(** An f-string is the concatenation of its pieces. *)
Definition fstr (pieces : list string) : string := String.concat "" pieces.

(** [str(x)] of an optional string ([None] prints as "None"). *)
Definition str_opt (o : option string) : string :=
  match o with Some s => s | None => "None" end.

(** ** Exceptions *)

Inductive exn_class : Type :=
| FileNotFoundError
| JSONDecodeError
| KeyError
| TypeError
| AttributeError
| ValueError
| OtherException.

(** An exception (a subclass of [Exception]) is known to the code only by
    its class, which the [except] clauses test, and by [str(e)], which the
    f-strings interpolate. *)
Record exn : Type := mk_exn { exn_cls : exn_class; exn_str : string }.

(** The outcome of one external call. *)
Inductive res (A : Type) : Type :=
| Val (a : A)
| Exc (e : exn).
Arguments Val {A} a.
Arguments Exc {A} e.

(** The name of a Python type as it appears in error messages. *)
Definition type_name (v : pyval) : string :=
  match v with
  | PyNone => "NoneType"
  | PyBool _ => "bool"
  | PyInt _ => "int"
  | PyFloat _ => "float"
  | PyStr _ => "str"
  | PyList _ => "list"
  | PyTuple _ => "tuple"
  | PyDict _ => "dict"
  end.

(** [v[k]] for a string key [k].  A missing key of a dict raises
    [KeyError], whose [str] is the [repr] of the key; a list or a string
    refuses a string index and anything else is not subscriptable, both
    with a [TypeError]. *)
Definition subscript (v : pyval) (k : string) : res pyval :=
  match v with
  | PyDict d =>
      match dict_lookup k d with
      | Some x => Val x
      | None => Exc (mk_exn KeyError (fstr ["'"; k; "'"]))
      end
  | PyList _ =>
      Exc (mk_exn TypeError "list indices must be integers or slices, not str")
  | PyTuple _ =>
      Exc (mk_exn TypeError "tuple indices must be integers or slices, not str")
  | PyStr _ =>
      Exc (mk_exn TypeError "string indices must be integers, not 'str'")
  | _ =>
      Exc (mk_exn TypeError (fstr ["'"; type_name v; "' object is not subscriptable"]))
  end.

(** [v.get(k)]: only a dict has the method. *)
Definition dict_get (v : pyval) (k : string) : res pyval :=
  match v with
  | PyDict d =>
      match dict_lookup k d with
      | Some x => Val x
      | None => Val PyNone
      end
  | _ =>
      Exc (mk_exn AttributeError
             (fstr ["'"; type_name v; "' object has no attribute 'get'"]))
  end.

(** [v.get(k, default)] *)
Definition dict_get_default (v : pyval) (k : string) (default : pyval) : res pyval :=
  match v with
  | PyDict d =>
      match dict_lookup k d with
      | Some x => Val x
      | None => Val default
      end
  | _ =>
      Exc (mk_exn AttributeError
             (fstr ["'"; type_name v; "' object has no attribute 'get'"]))
  end.

(** [needle in hay] for two strings. *)
Fixpoint contains (needle hay : string) : bool :=
  String.prefix needle hay
  || match hay with
     | EmptyString => false
     | String _ hay' => contains needle hay'
     end.

Definition is_str (k : string) (v : pyval) : bool :=
  match v with
  | PyStr s => (s =? k)%string
  | _ => false
  end.

(** [k in v] for a string [k]: a key of a dict, a substring of a string,
    an element of a list or tuple; anything else is not iterable. *)
Definition py_in (k : string) (v : pyval) : res bool :=
  match v with
  | PyDict d => Val (match dict_lookup k d with Some _ => true | None => false end)
  | PyStr s => Val (contains k s)
  | PyList l | PyTuple l => Val (existsb (is_str k) l)
  | _ => Exc (mk_exn TypeError
                (fstr ["argument of type '"; type_name v; "' is not iterable"]))
  end.

(** ** Records exchanged with the node *)

(** The dictionary handed to [build_transaction]. *)
Record tx_params : Type := mk_tx_params {
  tx_from : string;
  tx_nonce : Z;
  tx_gas : Z;
  tx_gasPrice : Z;
  tx_chainId : Z
}.

(** The two fields of a receipt that the code reads. *)
Record receipt : Type := mk_receipt {
  status : Z;
  contractAddress : pyval
}.

(** ** Unit conversion: [Web3.to_wei]

    The code calls [w3.to_wei('1', 'gwei')] and [w3.to_wei(0.01, 'ether')].
    [to_wei] belongs to the web3 library, not to this repository; the
    definitions below follow the library's algorithm on
    [decimal.Decimal] values, a coefficient and a power of ten, with
    Python's rounding to the precision of the context. *)

Definition dec : Type := (Z * Z)%type.

Definition nb_digits (c : Z) : Z :=
  match c with
  | Z0 => 1
  | Zpos p | Zneg p => Z.of_nat (Decimal.nb_digits (Pos.to_uint p))
  end.

(** Rounding of a coefficient to [prec] significant digits, ties to even
    (the default rounding of a decimal context). *)
Definition round_prec (prec : Z) (d : dec) : dec :=
  let '(c, e) := d in
  let n := nb_digits c in
  if n <=? prec then d
  else
    let k := n - prec in
    let p := 10 ^ k in
    let q := Z.abs c / p in
    let r := Z.abs c mod p in
    let q' := if 2 * r <? p then q
              else if p <? 2 * r then q + 1
              else if Z.even q then q else q + 1 in
    (Z.sgn c * q', e + k).

Definition dec_mul (prec : Z) (a b : dec) : dec :=
  round_prec prec (fst a * fst b, snd a + snd b).

(** [d < 1] *)
Definition dec_lt_one (d : dec) : bool :=
  let '(c, e) := d in
  if 0 <=? e then c <? 1 else c <? 10 ^ (- e).

(** [int(d)]: truncation towards zero. *)
Definition dec_to_int (d : dec) : Z :=
  let '(c, e) := d in
  if 0 <=? e then c * 10 ^ e else Z.quot c (10 ^ (- e)).

(** [d < lo] and [hi < d] for integers [lo], [hi]. *)
Definition dec_lt_int (d : dec) (n : Z) : bool :=
  let '(c, e) := d in
  if 0 <=? e then c * 10 ^ e <? n else c <? n * 10 ^ (- e).

Definition dec_gt_int (d : dec) (n : Z) : bool :=
  let '(c, e) := d in
  if 0 <=? e then n <? c * 10 ^ e else n * 10 ^ (- e) <? c.

(** [Decimal(s)] for a plain literal: digits with at most one point. *)
Definition digit_of (c : ascii) : option Z :=
  let n := Z.of_nat (nat_of_ascii c) in
  if (48 <=? n) && (n <=? 57) then Some (n - 48) else None.

Fixpoint parse_digits (s : string) (acc : Z) : option Z :=
  match s with
  | EmptyString => Some acc
  | String c s' =>
      match digit_of c with
      | Some d => parse_digits s' (10 * acc + d)
      | None => None
      end
  end.

Definition parse_decimal (s : string) : option dec :=
  match String.index 0 "." s with
  | None =>
      if (s =? "")%string then None
      else option_map (fun c => (c, 0)) (parse_digits s 0)
  | Some i =>
      let ip := String.substring 0 i s in
      let fp := String.substring (S i) (String.length s - S i) s in
      if ((ip =? "") && (fp =? ""))%string then None
      else option_map (fun c => (c, - Z.of_nat (String.length fp)))
                      (parse_digits (ip ++ fp) 0)
  end.

(** [Decimal(f)] of a float is exact: [m * 2^e = (m * 5^-e) * 10^e]. *)
Definition dec_of_float (f : pyfloat) : option dec :=
  match f with
  | FFinite m e => Some (if 0 <=? e then (m * 2 ^ e, 0) else (m * 5 ^ (- e), e))
  | _ => None
  end.

(** The argument of [to_wei]: a string, or a float together with its
    [str]. *)
Inductive wei_number : Type :=
| WStr (s : string)
| WFloat (f : pyfloat) (str_f : string).

(** The table [units], by exponent of ten. *)
Definition units : list (string * Z) :=
  [("wei", 0); ("kwei", 3); ("babbage", 3); ("femtoether", 3);
   ("mwei", 6); ("lovelace", 6); ("picoether", 6);
   ("gwei", 9); ("shannon", 9); ("nanoether", 9); ("nano", 9);
   ("szabo", 12); ("microether", 12); ("micro", 12);
   ("finney", 15); ("milliether", 15); ("milli", 15);
   ("ether", 18); ("kether", 21); ("grand", 21);
   ("mether", 24); ("gether", 27); ("tether", 30)].

Fixpoint unit_exponent (u : string) (t : list (string * Z)) : option Z :=
  match t with
  | [] => None
  | (k, x) :: t' => if (u =? k)%string then Some x else unit_exponent u t'
  end.

Definition MIN_WEI : Z := 0.
Definition MAX_WEI : Z := 2 ^ 256 - 1.

(** [to_wei(number, unit)].  The string form gives [d_number]; a value
    below one written with a point is first scaled to an integer, in a
    context whose precision is the number of digits after the point, and
    the unit is scaled down by as much; the product is taken with 999
    digits and must lie in the range of a 256-bit word. *)
Definition to_wei (number : wei_number) (unit : string) : res Z :=
  match unit_exponent unit units with
  | None => Exc (mk_exn ValueError "Unknown unit")
  | Some u =>
      let s_number := match number with WStr s => s | WFloat _ s => s end in
      let exact := match number with
                   | WStr s => parse_decimal s
                   | WFloat f _ => dec_of_float f
                   end in
      match parse_decimal s_number, exact with
      | Some d_number, Some x =>
          if fst d_number =? 0 then Val 0
          else
            let scaled :=
              match String.index 0 "." s_number with
              | Some i =>
                  if dec_lt_one d_number then
                    let multiplier :=
                      Z.of_nat (String.length s_number - i - 1) in
                    if multiplier <? 1
                    then None
                    else Some (dec_mul multiplier x (10 ^ multiplier, 0),
                               u - multiplier)
                  else Some (d_number, u)
              | None => Some (d_number, u)
              end in
            match scaled with
            | None => Exc (mk_exn ValueError "valid range for prec is [1, MAX_PREC]")
            | Some (d, u') =>
                let result_value := dec_mul 999 d (1, u') in
                if dec_lt_int result_value MIN_WEI
                   || dec_gt_int result_value MAX_WEI
                then Exc (mk_exn ValueError
                            "Resulting wei value must be between 1 and 2**256 - 1")
                else Val (dec_to_int result_value)
            end
      | _, _ => Exc (mk_exn OtherException "decimal.InvalidOperation")
      end
  end.

(** The float literal [0.01]: the binary64 value nearest to 1/100, printed
    by [str] as "0.01". *)
Definition float_0_01 : pyfloat := FFinite 5764607523034235 (-59).


(** ** The world: node and file system *)

Section Backend.

(** The state of everything outside the process: the node behind the RPC
    endpoint and the file system.  Every external call may change it. *)
Variable W : Type.

(** The operations of a [Web3] instance that the code uses.  Each one may
    return or raise. *)
Record web3 : Type := mk_web3 {
  is_connected : W -> res bool * W;
  (** [w3.eth.account.from_key(key).address] *)
  from_key : string -> W -> res string * W;
  (** [w3.eth.contract(abi=.., bytecode=..)] *)
  contract : pyval -> pyval -> W -> res unit * W;
  get_transaction_count : string -> W -> res Z * W;
  (** [Contract.constructor( *args )] *)
  constructor : list pyval -> W -> res unit * W;
  (** [.estimate_gas({'from': .., 'nonce': ..})] *)
  estimate_gas : string -> Z -> W -> res Z * W;
  gas_price : W -> res Z * W;
  chain_id : W -> res Z * W;
  build_transaction : tx_params -> W -> res pyval * W;
  (** [w3.eth.account.sign_transaction(tx, key).rawTransaction] *)
  sign_transaction : pyval -> string -> W -> res string * W;
  send_raw_transaction : string -> W -> res string * W;
  wait_for_transaction_receipt : string -> Z -> W -> res receipt * W;
  get_transaction : string -> W -> res unit * W
}.

(** The file system: [os.path.exists(path)], which never raises, and
    [json.load(open(path, 'r'))]. *)
Record filesystem : Type := mk_filesystem {
  path_exists : string -> W -> bool * W;
  open_json_load : string -> W -> res pyval * W
}.

(** One external call together with its outcome. *)
Inductive event : Type :=
| EIsConnected (r : res bool)
| EPathExists (path : string) (r : bool)
| EFromKey (key : string) (r : res string)
| EOpenJsonLoad (path : string) (r : res pyval)
| EContract (abi bytecode : pyval) (r : res unit)
| EGetTransactionCount (address : string) (r : res Z)
| EConstructor (args : list pyval) (r : res unit)
| EEstimateGas (from : string) (nonce : Z) (r : res Z)
| EGasPrice (r : res Z)
| EChainId (r : res Z)
| EBuildTransaction (p : tx_params) (r : res pyval)
| ESignTransaction (tx : pyval) (key : string) (r : res string)
| ESendRawTransaction (raw : string) (r : res string)
| EWaitForTransactionReceipt (tx_hash : string) (timeout : Z) (r : res receipt)
| EGetTransaction (tx_hash : string) (r : res unit)
| ECallDeploy (artifact_path : option string) (private_key : string)
              (constructor_args : list pyval).

(** ** Control flow

    A block of statements ends normally, leaves the function through
    [return], or raises. *)
Inductive ctl (A : Type) : Type :=
| Normal (a : A)
| Return (v : pyval)
| Raise (e : exn).
Arguments Normal {A} a.
Arguments Return {A} v.
Arguments Raise {A} e.

Definition M (A : Type) : Type := W -> ctl A * W * list event.

Definition ret {A} (a : A) : M A := fun w => (Normal a, w, []).

Definition bind {A B} (m : M A) (k : A -> M B) : M B := fun w =>
  match m w with
  | (Normal a, w1, t1) =>
      match k a w1 with (r, w2, t2) => (r, w2, t1 ++ t2) end
  | (Return v, w1, t1) => (Return v, w1, t1)
  | (Raise e, w1, t1) => (Raise e, w1, t1)
  end.

Definition py_return {A} (v : pyval) : M A := fun w => (Return v, w, []).

Definition py_raise {A} (e : exn) : M A := fun w => (Raise e, w, []).

(** [try: body  except Exception as e: handler e].  A [return] inside the
    body is not an exception and passes through. *)
Definition try_except {A} (body : M A) (handler : exn -> M A) : M A := fun w =>
  match body w with
  | (Raise e, w1, t1) =>
      match handler e w1 with (r, w2, t2) => (r, w2, t1 ++ t2) end
  | other => other
  end.

(** An external call, recorded in the trace. *)
Definition call {A} (op : W -> res A * W) (ev : res A -> event) : M A := fun w =>
  match op w with
  | (Val a, w1) => (Normal a, w1, [ev (Val a)])
  | (Exc e, w1) => (Raise e, w1, [ev (Exc e)])
  end.

(** A call that cannot raise. *)
Definition call_total {A} (op : W -> A * W) (ev : A -> event) : M A := fun w =>
  match op w with
  | (a, w1) => (Normal a, w1, [ev a])
  end.

(** A mark in the trace. *)
Definition log (ev : event) : M unit := fun w => (Normal tt, w, [ev]).

(** A computation inside the process. *)
Definition lift {A} (r : res A) : M A :=
  match r with
  | Val a => ret a
  | Exc e => py_raise e
  end.

(** A function body: [return v] yields [v], falling off the end yields
    [None], an exception propagates to the caller. *)
Definition py_function (body : M unit) : M pyval := fun w =>
  match body w with
  | (Normal _, w1, t) => (Normal PyNone, w1, t)
  | (Return v, w1, t) => (Normal v, w1, t)
  | (Raise e, w1, t) => (Raise e, w1, t)
  end.

Notation "x <- m ;; k" := (bind m (fun x => k))
  (at level 61, m at next level, right associativity).
Notation "m ;;; k" := (bind m (fun _ => k))
  (at level 61, right associativity).

Definition error_dict (msg : string) : pyval := PyDict [("error", PyStr msg)].

(** ** Configuration read from the environment at import time *)

Variable RPC_URL : option string.
Variable fs : filesystem.

(** ** [deploy_contract_backend]

    The [print] calls only write to standard output and are left out. *)
Definition deploy_contract_backend
    (w3_instance : option web3) (artifact_path : option string)
    (private_key : string) (constructor_args : list pyval) : M pyval :=
  py_function (
    if (private_key =? "")%string then
      py_return (error_dict "Private key not configured in environment variables.")
    else
    match artifact_path with
    | None | Some EmptyString =>
      py_return (error_dict "CONTRACT_ARTIFACT_PATH environment variable not set.")
    | Some artifact_path =>
    let not_connected : M unit :=
      py_return (error_dict
        (fstr ["Backend not connected to network. RPC_URL: "; str_opt RPC_URL])) in
    match w3_instance with
    | None => not_connected
    | Some w3 =>
    connected <- call (is_connected w3) EIsConnected ;;
    if negb connected then not_connected else
    (* Re-check artifact file existence here as well before trying to open *)
    found <- call_total (path_exists fs artifact_path) (EPathExists artifact_path) ;;
    if negb found then
      py_return (error_dict
        (fstr ["Contract artifact file not found at "; artifact_path;
               ". Ensure contract is compiled and path is correct."]))
    else
    try_except (
      account_address <- call (from_key w3 private_key) (EFromKey private_key) ;;
      artifact <-
        try_except (
          contract_json <- call (open_json_load fs artifact_path)
                                (EOpenJsonLoad artifact_path) ;;
          abi <- lift (subscript contract_json "abi") ;;
          bytecode <- lift (subscript contract_json "bytecode") ;;
          ret (abi, bytecode))
        (fun e =>
           match exn_cls e with
           | FileNotFoundError =>
               (* This check is redundant if done before, but kept for safety *)
               py_return (error_dict
                 (fstr ["Contract artifact file not found at "; artifact_path;
                        ". Ensure contract is compiled."]))
           | JSONDecodeError =>
               py_return (error_dict
                 (fstr ["Could not decode JSON from "; artifact_path;
                        ". Ensure it's a valid JSON file."]))
           | _ => py_raise e
           end) ;;
      let '(abi, bytecode) := artifact in
      call (contract w3 abi bytecode) (EContract abi bytecode) ;;;
      nonce <- call (get_transaction_count w3 account_address)
                    (EGetTransactionCount account_address) ;;
      gas_estimate <-
        try_except (
          call (constructor w3 constructor_args) (EConstructor constructor_args) ;;;
          call (estimate_gas w3 account_address nonce)
               (EEstimateGas account_address nonce))
        (fun e =>
           (* Attempt to get estimated gas price to provide more context *)
           try_except (call (gas_price w3) EGasPrice ;;; ret tt)
                      (fun gas_price_e => ret tt) ;;;
           py_return (error_dict
             (fstr ["Error estimating gas: "; exn_str e;
                    ". Check testnet ETH balance and constructor args."]))) ;;
      gas_price_to_use <-
        try_except (call (gas_price w3) EGasPrice)
                   (fun e => lift (to_wei (WStr "1") "gwei")) ;;
      call (constructor w3 constructor_args) (EConstructor constructor_args) ;;;
      chain <- call (chain_id w3) EChainId ;;
      let params := {| tx_from := account_address;
                       tx_nonce := nonce;
                       tx_gas := gas_estimate + 100000; (* Add a buffer *)
                       tx_gasPrice := gas_price_to_use;
                       tx_chainId := chain |} in
      transaction <- call (build_transaction w3 params) (EBuildTransaction params) ;;
      raw_transaction <- call (sign_transaction w3 transaction private_key)
                              (ESignTransaction transaction private_key) ;;
      tx_hash <- call (send_raw_transaction w3 raw_transaction)
                      (ESendRawTransaction raw_transaction) ;;
      tx_receipt <- call (wait_for_transaction_receipt w3 tx_hash 300)
                         (EWaitForTransactionReceipt tx_hash 300) ;;
      if status tx_receipt =? 1 then
        py_return (PyDict [("contractAddress", contractAddress tx_receipt)])
      else
        (* Attempt to get transaction error details if available *)
        try_except (call (get_transaction w3 tx_hash) (EGetTransaction tx_hash))
                   (fun tx_error => ret tt) ;;;
        py_return (error_dict
          "Transaction failed during deployment. Check testnet explorer."))
    (fun e =>
       py_return (error_dict (fstr ["An unexpected error occurred: "; exn_str e])))
    end
    end).

(** ** The route [/deploy-token] *)

Variable PRIVATE_KEY : string.
Variable CONTRACT_ARTIFACT_PATH : option string.
Variable FEE_RECIPIENT_ADDRESS : option string.
(** The module-level [w3]: [None] when [RPC_URL] is unset or the
    construction of the [Web3] object failed. *)
Variable w3 : option web3.

(** [jsonify(body), code] *)
Definition response (body : pyval) (code : Z) : pyval :=
  PyTuple [body; PyInt code].

(** [request_json] is the outcome of [request.get_json()]. *)
Definition deploy_token (request_json : res pyval) : M pyval :=
  py_function (
    data <- lift request_json ;;
    if negb (truthy data) then
      py_return (response (error_dict "Invalid JSON") 400)
    else
    token_name <- lift (dict_get data "name") ;;
    token_symbol <- lift (dict_get data "symbol") ;;
    if negb (truthy token_name) || negb (truthy token_symbol) then
      py_return (response (error_dict "Missing token name or symbol") 400)
    else
    match FEE_RECIPIENT_ADDRESS with
    | None | Some EmptyString =>
      py_return (response
        (error_dict "Backend configuration error: Fee recipient address not set.") 500)
    | Some fee_recipient =>
    (* LP Migration Market Cap (example: 0.01 ETH equivalent) *)
    let fallback : M Z :=
      (* Defaulting to 0.01 ether in wei *)
      ret (10 ^ 16) in
    lp_migration_market_cap_wei <-
      match w3 with
      | None => fallback
      | Some w =>
          connected <- call (is_connected w) EIsConnected ;;
          if connected then lift (to_wei (WFloat float_0_01 "0.01") "ether")
          else fallback
      end ;;
    let constructor_arguments :=
      [token_name; token_symbol; PyInt lp_migration_market_cap_wei;
       PyStr fee_recipient] in
    (* Call the deployment function *)
    log (ECallDeploy CONTRACT_ARTIFACT_PATH PRIVATE_KEY constructor_arguments) ;;;
    deployment_result <-
      deploy_contract_backend w3 CONTRACT_ARTIFACT_PATH PRIVATE_KEY
                              constructor_arguments ;;
    has_address <- lift (py_in "contractAddress" deployment_result) ;;
    if has_address then
      address <- lift (subscript deployment_result "contractAddress") ;;
      py_return (response (PyDict [("tokenAddress", address)]) 200)
    else
      (* Return a more specific error if available *)
      reason <- lift (dict_get_default deployment_result "error"
                                       (PyStr "Deployment failed")) ;;
      py_return (response (PyDict [("error", reason)]) 500)
    end).

(** ** Start-up: the module-level [w3]

    [Web3(Web3.HTTPProvider(url))] only builds the client object; the
    first request to the node is the connectivity check. *)

Variable new_web3 : string -> res web3.

Definition init_w3 : M (option web3) :=
  match RPC_URL with
  | None | Some EmptyString => ret None
  | Some url =>
      try_except (
        client <- lift (new_web3 url) ;;
        (* Check connection (optional, but good to know if the backend can
           connect): both outcomes only print *)
        call (is_connected client) EIsConnected ;;;
        ret (Some client))
      (fun e =>
         (* Ensure w3 is None if initialization failed *)
         ret None)
  end.

End Backend.

Arguments Normal {A} a.
Arguments Return {A} v.
Arguments Raise {A} e.
Arguments ret {W A} a _.
Arguments bind {W A B} m k _.
Arguments py_return {W A} v _.
Arguments py_raise {W A} e _.
Arguments try_except {W A} body handler _.
Arguments call {W A} op ev _.
Arguments call_total {W A} op ev _.
Arguments lift {W A} r.
Arguments log {W} ev _.
Arguments is_connected {W} w _.
Arguments from_key {W} w _ _.
Arguments contract {W} w _ _ _.
Arguments get_transaction_count {W} w _ _.
Arguments constructor {W} w _ _.
Arguments estimate_gas {W} w _ _ _.
Arguments gas_price {W} w _.
Arguments chain_id {W} w _.
Arguments build_transaction {W} w _ _.
Arguments sign_transaction {W} w _ _ _.
Arguments send_raw_transaction {W} w _ _.
Arguments wait_for_transaction_receipt {W} w _ _ _.
Arguments get_transaction {W} w _ _.
Arguments path_exists {W} f _ _.
Arguments open_json_load {W} f _ _.
Arguments deploy_contract_backend {W} RPC_URL fs w3_instance artifact_path
  private_key constructor_args _.
Arguments deploy_token {W} RPC_URL fs PRIVATE_KEY CONTRACT_ARTIFACT_PATH
  FEE_RECIPIENT_ADDRESS w3 request_json _.
Arguments py_function {W} body _.
Arguments init_w3 {W} RPC_URL new_web3 _.

(** ** A scripted node

    A world for examples: the node answers every query with a fixed
    outcome.  The world itself carries no state. *)
Module Script.

Record answers : Type := mk_answers {
  a_connected : res bool;
  a_account : res string;
  a_contract : res unit;
  a_nonce : res Z;
  a_constructor : res unit;
  a_estimate : res Z;
  a_gas_price : res Z;
  a_chain_id : res Z;
  a_build : res pyval;
  a_sign : res string;
  a_send : res string;
  a_receipt : res receipt;
  a_transaction : res unit
}.

Definition node (a : answers) : web3 unit :=
  {| is_connected := fun w => (a_connected a, w);
     from_key := fun _ w => (a_account a, w);
     contract := fun _ _ w => (a_contract a, w);
     get_transaction_count := fun _ w => (a_nonce a, w);
     constructor := fun _ w => (a_constructor a, w);
     estimate_gas := fun _ _ w => (a_estimate a, w);
     gas_price := fun w => (a_gas_price a, w);
     chain_id := fun w => (a_chain_id a, w);
     build_transaction := fun _ w => (a_build a, w);
     sign_transaction := fun _ _ w => (a_sign a, w);
     send_raw_transaction := fun _ w => (a_send a, w);
     wait_for_transaction_receipt := fun _ _ w => (a_receipt a, w);
     get_transaction := fun _ w => (a_transaction a, w) |}.

(** A file system with one file, whose content [json.load] reads as
    [content]. *)
Definition disk (file : string) (content : res pyval) : filesystem unit :=
  {| path_exists := fun p w => ((p =? file)%string, w);
     open_json_load := fun p w =>
       (if (p =? file)%string then content
        else Exc (mk_exn FileNotFoundError
                    (fstr ["[Errno 2] No such file or directory: '"; p; "'"])),
        w) |}.

Definition artifact : pyval :=
  PyDict [("abi", PyList []); ("bytecode", PyStr "0x6080")].

(** A node on which a deployment goes through. *)
Definition healthy : answers :=
  {| a_connected := Val true;
     a_account := Val "0xA11CE";
     a_contract := Val tt;
     a_nonce := Val 5;
     a_constructor := Val tt;
     a_estimate := Val 21000;
     a_gas_price := Val 1;
     a_chain_id := Val 84532;
     a_build := Val (PyDict [("data", PyStr "0x6080")]);
     a_sign := Val "0xf86b";
     a_send := Val "0xbeef";
     a_receipt := Val {| status := 1; contractAddress := PyStr "0xC0FFEE" |};
     a_transaction := Val tt |}.

Definition args : list pyval :=
  [PyStr "Token"; PyStr "TKN"; PyInt (10 ^ 16); PyStr "0xFEE"].

Definition run_at (a : answers) (content : res pyval)
    (path : option string) (key : string) : ctl pyval * unit * list event :=
  deploy_contract_backend (Some "http://rpc") (disk "Token.json" content)
    (Some (node a)) path key args tt.

Definition run (a : answers) (content : res pyval) (key : string)
  : ctl pyval * unit * list event :=
  run_at a content (Some "Token.json") key.

(** The same node with one answer replaced. *)
Definition with_connected (r : res bool) (a : answers) : answers :=
  {| a_connected := r; a_account := a_account a; a_contract := a_contract a;
     a_nonce := a_nonce a; a_constructor := a_constructor a;
     a_estimate := a_estimate a; a_gas_price := a_gas_price a;
     a_chain_id := a_chain_id a; a_build := a_build a; a_sign := a_sign a;
     a_send := a_send a; a_receipt := a_receipt a;
     a_transaction := a_transaction a |}.

Definition with_account (r : res string) (a : answers) : answers :=
  {| a_connected := a_connected a; a_account := r; a_contract := a_contract a;
     a_nonce := a_nonce a; a_constructor := a_constructor a;
     a_estimate := a_estimate a; a_gas_price := a_gas_price a;
     a_chain_id := a_chain_id a; a_build := a_build a; a_sign := a_sign a;
     a_send := a_send a; a_receipt := a_receipt a;
     a_transaction := a_transaction a |}.

Definition with_transaction (r : res unit) (a : answers) : answers :=
  {| a_connected := a_connected a; a_account := a_account a;
     a_contract := a_contract a;
     a_nonce := a_nonce a; a_constructor := a_constructor a;
     a_estimate := a_estimate a; a_gas_price := a_gas_price a;
     a_chain_id := a_chain_id a; a_build := a_build a; a_sign := a_sign a;
     a_send := a_send a; a_receipt := a_receipt a;
     a_transaction := r |}.

Definition with_nonce (r : res Z) (a : answers) : answers :=
  {| a_connected := a_connected a; a_account := a_account a;
     a_contract := a_contract a;
     a_nonce := r; a_constructor := a_constructor a;
     a_estimate := a_estimate a; a_gas_price := a_gas_price a;
     a_chain_id := a_chain_id a; a_build := a_build a; a_sign := a_sign a;
     a_send := a_send a; a_receipt := a_receipt a;
     a_transaction := a_transaction a |}.

Definition with_estimate (r : res Z) (a : answers) : answers :=
  {| a_connected := a_connected a; a_account := a_account a;
     a_contract := a_contract a;
     a_nonce := a_nonce a; a_constructor := a_constructor a;
     a_estimate := r; a_gas_price := a_gas_price a;
     a_chain_id := a_chain_id a; a_build := a_build a; a_sign := a_sign a;
     a_send := a_send a; a_receipt := a_receipt a;
     a_transaction := a_transaction a |}.

Definition with_gas_price (r : res Z) (a : answers) : answers :=
  {| a_connected := a_connected a; a_account := a_account a;
     a_contract := a_contract a;
     a_nonce := a_nonce a; a_constructor := a_constructor a;
     a_estimate := a_estimate a; a_gas_price := r;
     a_chain_id := a_chain_id a; a_build := a_build a; a_sign := a_sign a;
     a_send := a_send a; a_receipt := a_receipt a;
     a_transaction := a_transaction a |}.

Definition with_chain_id (r : res Z) (a : answers) : answers :=
  {| a_connected := a_connected a; a_account := a_account a;
     a_contract := a_contract a;
     a_nonce := a_nonce a; a_constructor := a_constructor a;
     a_estimate := a_estimate a; a_gas_price := a_gas_price a;
     a_chain_id := r; a_build := a_build a; a_sign := a_sign a;
     a_send := a_send a; a_receipt := a_receipt a;
     a_transaction := a_transaction a |}.

Definition with_send (r : res string) (a : answers) : answers :=
  {| a_connected := a_connected a; a_account := a_account a;
     a_contract := a_contract a;
     a_nonce := a_nonce a; a_constructor := a_constructor a;
     a_estimate := a_estimate a; a_gas_price := a_gas_price a;
     a_chain_id := a_chain_id a; a_build := a_build a; a_sign := a_sign a;
     a_send := r; a_receipt := a_receipt a;
     a_transaction := a_transaction a |}.

Definition with_receipt (r : res receipt) (a : answers) : answers :=
  {| a_connected := a_connected a; a_account := a_account a;
     a_contract := a_contract a;
     a_nonce := a_nonce a; a_constructor := a_constructor a;
     a_estimate := a_estimate a; a_gas_price := a_gas_price a;
     a_chain_id := a_chain_id a; a_build := a_build a; a_sign := a_sign a;
     a_send := a_send a; a_receipt := r;
     a_transaction := a_transaction a |}.

(** Errors as a node and the client library word them. *)
Definition nonce_too_low : exn :=
  mk_exn ValueError "{'code': -32000, 'message': 'nonce too low'}".

Definition execution_reverted : exn :=
  mk_exn OtherException "execution reverted: ERC20: invalid fee recipient".

Definition price_unavailable : exn :=
  mk_exn OtherException "HTTPSConnectionPool: Read timed out.".

Definition time_exhausted : exn :=
  mk_exn OtherException
    "Transaction HexBytes('0xbeef') is not in the chain after 300 seconds".

Definition bad_key : exn :=
  mk_exn ValueError
    "The private key must be exactly 32 bytes long, instead of 3 bytes.".

Definition permission_denied : exn :=
  mk_exn OtherException "[Errno 13] Permission denied: 'Token.json'".

Definition reverted_receipt : receipt :=
  {| status := 0; contractAddress := PyNone |}.

Definition bad_response : exn :=
  mk_exn JSONDecodeError "Expecting value: line 1 column 1 (char 0)".

(** A request to the route, served by the same node and disk. *)
Definition request : pyval :=
  PyDict [("name", PyStr "Token"); ("symbol", PyStr "TKN")].

Definition serve (w3 : option (web3 unit)) (req : res pyval)
  : ctl pyval * unit * list event :=
  deploy_token (Some "http://rpc") (disk "Token.json" (Val artifact))
    "0xkey" (Some "Token.json") (Some "0xFEE") w3 req tt.

(** The route with every setting explicit. *)
Definition serve_with (fee : option string) (w3 : option (web3 unit))
    (req : res pyval) : ctl pyval * unit * list event :=
  deploy_token (Some "http://rpc") (disk "Token.json" (Val artifact))
    "0xkey" (Some "Token.json") fee w3 req tt.

End Script.

(** ** Observing a run *)

Definition result_of {W A} (x : ctl A * W * list event) : ctl A := fst (fst x).
Definition trace_of {W A} (x : ctl A * W * list event) : list event := snd x.

Definition is_nonce_query (ev : event) : bool :=
  match ev with EGetTransactionCount _ _ => true | _ => false end.

Definition is_gas_estimation_query (ev : event) : bool :=
  match ev with EEstimateGas _ _ _ => true | _ => false end.

Definition is_submission (ev : event) : bool :=
  match ev with ESendRawTransaction _ _ => true | _ => false end.

(** The exception, if any, with which a recorded call ended. *)
Definition exn_of {A} (r : res A) : option exn :=
  match r with Val _ => None | Exc e => Some e end.

Definition event_exn (ev : event) : option exn :=
  match ev with
  | EIsConnected r => exn_of r
  | EPathExists _ _ => None
  | EFromKey _ r => exn_of r
  | EOpenJsonLoad _ r => exn_of r
  | EContract _ _ r => exn_of r
  | EGetTransactionCount _ r => exn_of r
  | EConstructor _ r => exn_of r
  | EEstimateGas _ _ r => exn_of r
  | EGasPrice r => exn_of r
  | EChainId r => exn_of r
  | EBuildTransaction _ r => exn_of r
  | ESignTransaction _ _ r => exn_of r
  | ESendRawTransaction _ r => exn_of r
  | EWaitForTransactionReceipt _ _ r => exn_of r
  | EGetTransaction _ r => exn_of r
  | ECallDeploy _ _ _ => None
  end.

(** A receipt with status 1 was observed. *)
Definition confirmed (tr : list event) : bool :=
  existsb (fun ev =>
             match ev with
             | EWaitForTransactionReceipt _ _ (Val rc) => status rc =? 1
             | _ => false
             end) tr.

(** The exception that ended the gas-estimation step, the expression
    [Contract.constructor( *args ).estimate_gas({..})]: the first failure of
    [estimate_gas], or of the constructor call made before it. *)
Fixpoint estimation_error (tr : list event) : option exn :=
  match tr with
  | [] => None
  | EEstimateGas _ _ r :: _ => exn_of r
  | EConstructor _ (Exc e) :: _ => Some e
  | _ :: tr' => estimation_error tr'
  end.

Definition is_signing (ev : event) : bool :=
  match ev with ESignTransaction _ _ _ => true | _ => false end.

Definition is_receipt_wait (ev : event) : bool :=
  match ev with EWaitForTransactionReceipt _ _ _ => true | _ => false end.

Definition is_call_deploy (ev : event) : bool :=
  match ev with ECallDeploy _ _ _ => true | _ => false end.

(** The text of an error raised by some call of the run is part of the
    reason returned to the caller. *)
Definition raw_error_in_reason {W} (x : ctl pyval * W * list event) : Prop :=
  exists ev e s,
    In ev (trace_of x) /\ event_exn ev = Some e /\ exn_str e <> "" /\
    result_of x = Normal (error_dict s) /\ contains (exn_str e) s = true.

Definition is_gas_price_query (ev : event) : bool :=
  match ev with EGasPrice _ => true | _ => false end.

(** The call recorded right after the first event that satisfies [p]. *)
Fixpoint next_after (p : event -> bool) (tr : list event) : option event :=
  match tr with
  | [] => None
  | ev :: tr' => if p ev then hd_error tr' else next_after p tr'
  end.

Fixpoint last_event (tr : list event) : option event :=
  match tr with
  | [] => None
  | [ev] => Some ev
  | _ :: tr' => last_event tr'
  end.

(** What the "error" entry of a returned record can be: a fixed message,
    with the artifact path or the RPC URL filled in, or a fixed frame around
    the text [str(e)] of the exception that stopped the run. *)
Definition stopped_by (tr : list event) (e : exn) : Prop :=
  (exists ev, last_event tr = Some ev /\ event_exn ev = Some e) \/
  (exists p j, last_event tr = Some (EOpenJsonLoad p (Val j)) /\
               (subscript j "abi" = Exc e \/ subscript j "bytecode" = Exc e)).

Inductive failure_reason (RPC_URL : option string)
    (artifact_path : option string) (tr : list event)
  : string -> Prop :=
| reason_no_key :
    failure_reason RPC_URL artifact_path tr
      "Private key not configured in environment variables."
| reason_no_path :
    failure_reason RPC_URL artifact_path tr
      "CONTRACT_ARTIFACT_PATH environment variable not set."
| reason_not_connected :
    failure_reason RPC_URL artifact_path tr
      (fstr ["Backend not connected to network. RPC_URL: "; str_opt RPC_URL])
| reason_not_found p :
    artifact_path = Some p ->
    failure_reason RPC_URL artifact_path tr
      (fstr ["Contract artifact file not found at "; p;
             ". Ensure contract is compiled and path is correct."])
| reason_vanished p :
    artifact_path = Some p ->
    failure_reason RPC_URL artifact_path tr
      (fstr ["Contract artifact file not found at "; p;
             ". Ensure contract is compiled."])
| reason_not_json p :
    artifact_path = Some p ->
    failure_reason RPC_URL artifact_path tr
      (fstr ["Could not decode JSON from "; p; ". Ensure it's a valid JSON file."])
| reason_reverted :
    failure_reason RPC_URL artifact_path tr
      "Transaction failed during deployment. Check testnet explorer."
| reason_estimation e :
    estimation_error tr = Some e ->
    failure_reason RPC_URL artifact_path tr
      (fstr ["Error estimating gas: "; exn_str e;
             ". Check testnet ETH balance and constructor args."])
| reason_unexpected e :
    stopped_by tr e ->
    failure_reason RPC_URL artifact_path tr
      (fstr ["An unexpected error occurred: "; exn_str e]).

(** ** More observations of a run *)

Definition is_connect_check (ev : event) : bool :=
  match ev with EIsConnected _ => true | _ => false end.

Definition is_artifact_load (ev : event) : bool :=
  match ev with EOpenJsonLoad _ _ => true | _ => false end.

Definition is_get_transaction (ev : event) : bool :=
  match ev with EGetTransaction _ _ => true | _ => false end.

Definition is_constructor_call (ev : event) : bool :=
  match ev with EConstructor _ _ => true | _ => false end.

(** The calls made outside any inner [try]: an exception of one of them
    goes straight to the outer handler. *)
Definition is_unguarded_call (ev : event) : bool :=
  match ev with
  | EFromKey _ _ | EContract _ _ _ | EGetTransactionCount _ _ | EChainId _
  | EBuildTransaction _ _ | ESignTransaction _ _ _ | ESendRawTransaction _ _
  | EWaitForTransactionReceipt _ _ _ => true
  | _ => false
  end.

(** How many recorded events satisfy [p]. *)
Definition count (p : event -> bool) (tr : list event) : nat :=
  List.length (filter p tr).

(** The report of the outer handler. *)
Definition unexpected (e : exn) : pyval :=
  error_dict (fstr ["An unexpected error occurred: "; exn_str e]).

(** The report for an exception raised while the artifact is read, by its
    class. *)
Definition load_report (path : string) (e : exn) : pyval :=
  match exn_cls e with
  | FileNotFoundError =>
      error_dict (fstr ["Contract artifact file not found at "; path;
                        ". Ensure contract is compiled."])
  | JSONDecodeError =>
      error_dict (fstr ["Could not decode JSON from "; path;
                        ". Ensure it's a valid JSON file."])
  | _ => unexpected e
  end.

(** The events the route records itself. *)
Definition is_route_event (ev : event) : bool :=
  match ev with EIsConnected _ | ECallDeploy _ _ _ => true | _ => false end.

(** ** Sanity checks of the model *)

Example round_prec_ties_to_even :
  round_prec 2 (12550, 0) = (13, 3) /\ round_prec 2 (995, 0) = (100, 1) /\
  round_prec 2 (125, 0) = (12, 1) /\ round_prec 2 (-1251, 3) = (-13, 5).
Proof. repeat split; reflexivity. Qed.

Example to_wei_examples :
  to_wei (WStr "1") "gwei" = Val 1000000000 /\
  to_wei (WStr "0.5") "gwei" = Val 500000000 /\
  to_wei (WStr "1.5") "wei" = Val 1 /\
  to_wei (WStr "1") "parsec" = Exc (mk_exn ValueError "Unknown unit").
Proof. repeat split; vm_compute; reflexivity. Qed.

Example subscript_examples :
  subscript (PyDict [("abi", PyList [])]) "abi" = Val (PyList []) /\
  subscript (PyDict [("abi", PyList [])]) "bytecode"
    = Exc (mk_exn KeyError "'bytecode'") /\
  subscript (PyList []) "abi"
    = Exc (mk_exn TypeError "list indices must be integers or slices, not str").
Proof. repeat split; reflexivity. Qed.

(** ** Proof automation *)

Lemma prefix_app : forall s t, String.prefix s (s ++ t) = true.
Proof.
  induction s as [|c s IH]; intros t; [destruct t; reflexivity|].
  cbn. destruct (ascii_dec c c) as [_|n]; [apply IH | contradiction n; reflexivity].
Qed.

Lemma contains_prefix : forall s t, String.prefix s t = true -> contains s t = true.
Proof. intros s t H. destruct t; cbn [contains]; rewrite H; reflexivity. Qed.

Lemma contains_app :
  forall a s b, contains s (String.append a (String.append s b)) = true.
Proof.
  induction a as [|c a IH]; intros s b.
  - cbn [String.append]. apply contains_prefix, prefix_app.
  - cbn [String.append contains]. rewrite IH. apply Bool.orb_true_r.
Qed.

Lemma contains_fstr : forall a s b, contains s (fstr [a; s; b]) = true.
Proof. intros a s b. exact (contains_app a s b). Qed.

(** Membership of an event, possibly not yet fully known, in a trace that
    is written out. *)
Ltac in_trace := cbn [In]; repeat first [left; reflexivity | right].

(** Case distinction on a hypothesis [In ev tr] over a trace that is
    written out. *)
Ltac pick_event H :=
  cbn [In] in H;
  repeat (destruct H as [H|H]; [try discriminate H|]);
  try contradiction H; try discriminate H.

Lemma to_wei_1_gwei : to_wei (WStr "1") "gwei" = Val 1000000000.
Proof. vm_compute. reflexivity. Qed.

Lemma to_wei_0_01_ether : to_wei (WFloat float_0_01 "0.01") "ether" = Val (10 ^ 16).
Proof. vm_compute. reflexivity. Qed.

Ltac unfold_run :=
  unfold deploy_contract_backend, py_function, bind, try_except, call,
    call_total, lift, log, ret, py_return, py_raise, error_dict;
  rewrite ?to_wei_1_gwei.

(** One case distinction on the outcome of the next call or test. *)
Ltac case_step :=
  match goal with
  | |- context [match ?x with _ => _ end] =>
      lazymatch type of x with
      | (res _ * _)%type => destruct x as [[?|?] ?] eqn:?
      | (bool * _)%type => destruct x as [? ?] eqn:?
      | res _ => destruct x eqn:?
      | bool => let E := fresh "Hb" in destruct x eqn:E; try discriminate E
      | exn_class => destruct x eqn:?
      | option _ => destruct x eqn:?
      | string => destruct x eqn:?
      end
  end.

(** All the paths through a run of [deploy_contract_backend]; the
    statement about the run is set aside while the paths are split. *)
Ltac run_cases :=
  match goal with
  | |- context [deploy_contract_backend ?u ?f ?i ?p ?k ?a ?w] =>
      pattern (deploy_contract_backend u f i p k a w);
      match goal with
      | |- ?P _ =>
          let Q := fresh "Q" in
          set (Q := P);
          unfold_run;
          repeat (cbv beta iota zeta; case_step);
          subst Q;
          cbv beta iota zeta; unfold result_of, trace_of; cbn [fst snd app]
      end
  end.

(** ** Properties of [deploy_contract_backend] *)

Section Pipeline.

Variable W : Type.
Variable RPC_URL : option string.
Variable fs : filesystem W.

(** C4.  With an empty private key the function returns the
    configuration error at once: the world is untouched and the trace is
    empty, so no operation of the chain client (nor of the file system) was
    called. *)
Theorem C4_absent_key_no_calls :
  forall w3_instance artifact_path constructor_args w,
    deploy_contract_backend RPC_URL fs w3_instance artifact_path ""
                            constructor_args w =
    (Normal (error_dict "Private key not configured in environment variables."),
     w, []).
Proof. reflexivity. Qed.






(** C8 (amended).  If the artifact path never resolves to an existing
    file, no nonce query and no gas-estimation query is issued; and when the
    earlier checks pass (key present, path set, client connected) the function
    returns the not-found error. *)
Theorem C8_missing_artifact :
  forall w3_instance artifact_path private_key constructor_args w,
    let run := deploy_contract_backend RPC_URL fs w3_instance artifact_path
                                       private_key constructor_args w in
    (forall p w', artifact_path = Some p -> fst (path_exists fs p w') = false) ->
    Forall (fun ev => is_nonce_query ev = false /\
                      is_gas_estimation_query ev = false) (trace_of run) /\
    (forall c p w1,
       private_key <> "" -> artifact_path = Some p -> p <> "" ->
       w3_instance = Some c -> is_connected c w = (Val true, w1) ->
       result_of run =
       Normal (error_dict
         (fstr ["Contract artifact file not found at "; p;
                ". Ensure contract is compiled and path is correct."]))).
Proof.
  intros w3_instance artifact_path private_key constructor_args w run.
  subst run. run_cases.
  all: intros Hmiss.
  all: try match goal with
       | E : path_exists fs ?p ?w0 = (?b, _), N : negb ?b = false |- _ =>
           specialize (Hmiss p w0 eq_refl); rewrite E in Hmiss;
           cbn [fst] in Hmiss; subst b; discriminate N
       end.
  all: split; [repeat constructor|].
  all: intros cN pN wN Hkey Hpath Hp Hw3 Hconn.
  all: try (apply String.eqb_eq in Hb; contradiction).
  all: try discriminate Hpath; try discriminate Hw3.
  all: try solve [injection Hpath as <-; exfalso; apply Hp; reflexivity].
  all: injection Hw3 as <-; injection Hpath as <-.
  all: rewrite Hconn in *.
  all: match goal with
       | E : (_, _) = (_, _) |- _ =>
           first [discriminate E | injection E as E1 E2; subst]
       end.
  all: try discriminate.
  all: reflexivity.
Qed.


End Pipeline.

(** ** The pipeline on a scripted node *)



(** C2.  An artifact that is valid JSON but lacks "abi", or "bytecode", is
    reported through the catch-all handler as an unexpected error naming the
    key, whereas a file that is not JSON gets the dedicated load-time
    message. *)
Theorem C2_missing_field_is_unexpected_error :
  result_of (Script.run Script.healthy
               (Val (PyDict [("bytecode", PyStr "0x6080")])) "0xkey")
    = Normal (error_dict "An unexpected error occurred: 'abi'") /\
  result_of (Script.run Script.healthy
               (Val (PyDict [("abi", PyList [])])) "0xkey")
    = Normal (error_dict "An unexpected error occurred: 'bytecode'") /\
  result_of (Script.run Script.healthy (Exc Script.bad_response) "0xkey")
    = Normal (error_dict
        "Could not decode JSON from Token.json. Ensure it's a valid JSON file.").
Proof. repeat split; reflexivity. Qed.







(** Witness of C8: key present, client connected, file missing. *)
Lemma C8_missing_artifact_witness :
  let run := Script.run_at Script.healthy (Val Script.artifact)
                           (Some "Missing.json") "0xkey" in
  (forall p w', Some "Missing.json" = Some p ->
                fst (path_exists (Script.disk "Token.json" (Val Script.artifact)) p w')
                = false) /\
  result_of run =
    Normal (error_dict
      "Contract artifact file not found at Missing.json. Ensure contract is compiled and path is correct.") /\
  Forall (fun ev => is_nonce_query ev = false /\
                    is_gas_estimation_query ev = false) (trace_of run).
Proof.
  assert (Hmiss : forall p w', Some "Missing.json" = Some p ->
            fst (path_exists (Script.disk "Token.json" (Val Script.artifact)) p w')
            = false).
  { intros p w' H. injection H as <-. reflexivity. }
  split; [exact Hmiss|].
  destruct (C8_missing_artifact unit (Some "http://rpc")
              (Script.disk "Token.json" (Val Script.artifact))
              (Some (Script.node Script.healthy))
              (Some "Missing.json") "0xkey" Script.args tt Hmiss) as [Hquiet Hreason].
  split; [|exact Hquiet].
  apply (Hreason (Script.node Script.healthy) "Missing.json" tt).
  - discriminate.
  - reflexivity.
  - discriminate.
  - reflexivity.
  - reflexivity.
Defined.

(** Counterexample to C8 as stated: the artifact file does not exist, yet
    with an empty key the reported failure is the configuration error, not
    the not-found error. *)
Lemma C8_counterexample :
  let run := Script.run_at Script.healthy (Val Script.artifact)
                           (Some "Missing.json") "" in
  (forall w', fst (path_exists (Script.disk "Token.json" (Val Script.artifact))
                               "Missing.json" w') = false) /\
  result_of run =
    Normal (error_dict "Private key not configured in environment variables.") /\
  result_of run <>
    Normal (error_dict
      "Contract artifact file not found at Missing.json. Ensure contract is compiled and path is correct.").
Proof.
  split; [intros w'; reflexivity|].
  split; [reflexivity|discriminate].
Qed.


(** ** The route *)

(** The pipeline never records a call of itself. *)
Lemma deploy_trace_no_call :
  forall W RPC_URL (fs : filesystem W) w3_instance artifact_path private_key
         constructor_args w,
    Forall (fun ev => is_call_deploy ev = false)
      (trace_of (deploy_contract_backend RPC_URL fs w3_instance artifact_path
                                         private_key constructor_args w)).
Proof. intros. run_cases. all: repeat constructor. Qed.

(** The float literal is the binary64 value nearest to 1/100: the mantissa
    has 53 bits and the error is at most half a unit in the last place. *)
Lemma float_0_01_nearest :
  match float_0_01 with
  | FFinite m e =>
      2 ^ 52 <= m < 2 ^ 53 /\ e = -59 /\ 2 * Z.abs (100 * m - 2 ^ 59) <= 100
  | _ => False
  end.
Proof. cbn. lia. Qed.



(** * Further properties of the code *)

(** A failed lookup raises [KeyError] or [TypeError], never one of the
    classes the artifact handlers test. *)
Lemma subscript_exn_class :
  forall j k e, subscript j k = Exc e ->
                exn_cls e = KeyError \/ exn_cls e = TypeError.
Proof.
  intros j k e H. destruct j; cbn in H;
    try (injection H as <-; right; reflexivity).
  destruct (dict_lookup k d); [discriminate H|].
  injection H as <-. left; reflexivity.
Qed.

Section PipelinePaths.

Variable W : Type.
Variable RPC_URL : option string.
Variable fs : filesystem W.

(** X1.  With a key but no artifact path ([None] or the empty string) the
    function returns the configuration error for the path without calling
    anything, the connectivity check included. *)
Theorem unset_path_no_calls :
  forall w3_instance artifact_path private_key constructor_args w,
    private_key <> "" ->
    artifact_path = None \/ artifact_path = Some "" ->
    deploy_contract_backend RPC_URL fs w3_instance artifact_path private_key
                            constructor_args w =
    (Normal (error_dict "CONTRACT_ARTIFACT_PATH environment variable not set."),
     w, []).
Proof.
  intros w3_instance artifact_path private_key constructor_args w Hkey Hpath.
  destruct private_key; [contradiction Hkey; reflexivity|].
  destruct Hpath as [-> | ->]; reflexivity.
Qed.

(** X2.  With key and path present, a missing client or a client that
    reports not connected yields the not-connected error, which quotes
    [RPC_URL]; the connectivity check is the only call, so the file system is
    not touched. *)
Theorem not_connected_report :
  forall w3_instance p private_key constructor_args w,
    let run := deploy_contract_backend RPC_URL fs w3_instance (Some p)
                                       private_key constructor_args w in
    private_key <> "" -> p <> "" ->
    (w3_instance = None \/
     exists c w1, w3_instance = Some c /\ is_connected c w = (Val false, w1)) ->
    result_of run =
      Normal (error_dict
        (fstr ["Backend not connected to network. RPC_URL: "; str_opt RPC_URL])) /\
    Forall (fun ev => is_connect_check ev = true) (trace_of run) /\
    (count is_connect_check (trace_of run) <= 1)%nat.
Proof.
  intros w3_instance p private_key constructor_args w run Hkey Hp Hw3.
  subst run. unfold result_of, trace_of, count.
  destruct private_key; [contradiction Hkey; reflexivity|].
  destruct p; [contradiction Hp; reflexivity|].
  destruct Hw3 as [-> | (c & w1 & -> & Hc)].
  - cbn. repeat split; auto.
  - unfold_run. cbn [String.eqb]. cbv beta iota zeta. rewrite Hc. cbn.
    repeat split; auto.
Qed.



(** X5.  When the parsed artifact has no "abi", or has "abi" but no
    "bytecode", the lookup error is reported as an unexpected error and
    nothing is called after the load. *)
Theorem artifact_field_missing :
  forall w3_instance artifact_path private_key constructor_args w p j e,
    let run := deploy_contract_backend RPC_URL fs w3_instance artifact_path
                                       private_key constructor_args w in
    In (EOpenJsonLoad p (Val j)) (trace_of run) ->
    (subscript j "abi" = Exc e \/
     (exists abi, subscript j "abi" = Val abi) /\ subscript j "bytecode" = Exc e) ->
    result_of run = Normal (unexpected e) /\
    last_event (trace_of run) = Some (EOpenJsonLoad p (Val j)).
Proof.
  intros w3_instance artifact_path private_key constructor_args w p j e run.
  subst run. run_cases.
  all: intros H; pick_event H.
  all: injection H as <- <-.
  all: intros [Ha | [[abi Ha] Hbc]].
  all: repeat match goal with
       | E1 : ?x = _, E2 : ?x = _ |- _ => rewrite E1 in E2
       end.
  all: try discriminate.
  all: repeat match goal with
       | E : Exc _ = Exc _ |- _ => injection E as <-
       end.
  all: try solve [split; reflexivity].
  all: match goal with
       | E : subscript _ _ = Exc ?x, C : exn_cls ?x = _ |- _ =>
           destruct (subscript_exn_class _ _ _ E) as [K | K];
           rewrite K in C; discriminate C
       end.
Qed.

End PipelinePaths.

Section PipelineDataFlow.

Variable W : Type.
Variable RPC_URL : option string.
Variable fs : filesystem W.






(** X11.  No run repeats a call: at most one connectivity check, artifact
    load, nonce query, gas estimation, gas-price query, signature, submission
    and receipt wait, and at most two constructor calls. *)
Theorem calls_at_most_once :
  forall w3_instance artifact_path private_key constructor_args w,
    let run := deploy_contract_backend RPC_URL fs w3_instance artifact_path
                                       private_key constructor_args w in
    (count is_connect_check (trace_of run) <= 1)%nat /\
    (count is_artifact_load (trace_of run) <= 1)%nat /\
    (count is_nonce_query (trace_of run) <= 1)%nat /\
    (count is_gas_estimation_query (trace_of run) <= 1)%nat /\
    (count is_gas_price_query (trace_of run) <= 1)%nat /\
    (count is_signing (trace_of run) <= 1)%nat /\
    (count is_submission (trace_of run) <= 1)%nat /\
    (count is_receipt_wait (trace_of run) <= 1)%nat /\
    (count is_constructor_call (trace_of run) <= 2)%nat.
Proof.
  intros w3_instance artifact_path private_key constructor_args w run.
  subst run. run_cases.
  all: unfold count; cbn.
  all: repeat split; auto.
Qed.




End PipelineDataFlow.

(** What the pipeline hands back to its caller. *)
Lemma deploy_outcome :
  forall W RPC_URL (fs : filesystem W) w3_instance artifact_path private_key
         constructor_args w,
    let run := deploy_contract_backend RPC_URL fs w3_instance artifact_path
                                       private_key constructor_args w in
    match result_of run with
    | Normal v =>
        (exists h rc,
           v = PyDict [("contractAddress", contractAddress rc)] /\
           last_event (trace_of run)
             = Some (EWaitForTransactionReceipt h 300 (Val rc)) /\
           status rc = 1) \/
        (exists s,
           v = error_dict s /\
           failure_reason RPC_URL artifact_path (trace_of run) s /\
           confirmed (trace_of run) = false)
    | Raise e => trace_of run = [EIsConnected (Exc e)]
    | Return _ => False
    end.
Proof.
  intros W RPC_URL fs w3_instance artifact_path private_key constructor_args w run.
  subst run. run_cases.
  all: try reflexivity.
  all: try solve [left; do 2 eexists; split; [reflexivity|]; split;
                  [reflexivity | apply Z.eqb_eq; assumption]].
  all: right; eexists; split; [reflexivity|].
  all: (split;
        [| unfold confirmed; cbn [existsb orb];
           repeat match goal with H : (_ =? _) = _ |- _ => rewrite H end;
           reflexivity]).
  all: try solve [apply reason_no_key | apply reason_no_path
                 | apply reason_not_connected | apply reason_reverted
                 | eapply reason_not_found; reflexivity
                 | eapply reason_vanished; reflexivity
                 | eapply reason_not_json; reflexivity
                 | apply reason_estimation; reflexivity ].
  all: apply reason_unexpected.
  all: try solve [left; eexists; split; reflexivity].
  all: right; do 2 eexists; split; [reflexivity|].
  all: solve [left; eassumption | right; eassumption].
Qed.

(** No reason of the pipeline is the default of the route. *)
Lemma failure_reason_not_default :
  forall RPC_URL path tr s,
    failure_reason RPC_URL path tr s -> s <> "Deployment failed".
Proof. intros RPC_URL path tr s H. destruct H; cbn; discriminate. Qed.

(** Events recorded by the route before the pipeline runs do not change
    what the trace says about the pipeline. *)
Lemma estimation_error_route :
  forall pre tr, Forall (fun ev => is_route_event ev = true) pre ->
                 estimation_error (pre ++ tr) = estimation_error tr.
Proof.
  induction 1 as [|ev pre Hev _ IH]; [reflexivity|].
  destruct ev; try discriminate Hev; exact IH.
Qed.

Lemma last_event_app :
  forall pre tr ev, last_event tr = Some ev -> last_event (pre ++ tr) = Some ev.
Proof.
  induction pre as [|x pre IH]; intros tr ev H; [exact H|].
  cbn [app]. specialize (IH tr ev H).
  destruct (pre ++ tr) eqn:E; [discriminate IH | exact IH].
Qed.

Lemma failure_reason_route :
  forall RPC_URL path pre tr s,
    Forall (fun ev => is_route_event ev = true) pre ->
    failure_reason RPC_URL path tr s ->
    failure_reason RPC_URL path (pre ++ tr) s.
Proof.
  intros RPC_URL path pre tr s Hpre H.
  destruct H; try (constructor; assumption).
  - apply reason_estimation. rewrite estimation_error_route; assumption.
  - apply reason_unexpected.
    destruct H as [(ev & Hl & He) | (p & j & Hl & Hs)].
    + left. exists ev. split; [apply last_event_app|]; assumption.
    + right. exists p, j. split; [apply last_event_app|]; assumption.
Qed.

Lemma py_in_address :
  forall a, py_in "contractAddress" (PyDict [("contractAddress", a)]) = Val true.
Proof. reflexivity. Qed.

Lemma subscript_address :
  forall a, subscript (PyDict [("contractAddress", a)]) "contractAddress" = Val a.
Proof. reflexivity. Qed.

Lemma py_in_error :
  forall s, py_in "contractAddress" (error_dict s) = Val false.
Proof. reflexivity. Qed.

Lemma get_error :
  forall s, dict_get_default (error_dict s) "error" (PyStr "Deployment failed")
            = Val (PyStr s).
Proof. reflexivity. Qed.

Lemma confirmed_route_event :
  forall ev tr, is_route_event ev = true -> confirmed (ev :: tr) = confirmed tr.
Proof. intros ev tr H. destruct ev; try discriminate H; reflexivity. Qed.

Lemma confirmed_later :
  forall ev tr, confirmed tr = true -> confirmed (ev :: tr) = true.
Proof.
  intros ev tr H. unfold confirmed in *. cbn [existsb]. rewrite H.
  apply Bool.orb_true_r.
Qed.

Lemma confirmed_last :
  forall tr h t rc,
    last_event tr = Some (EWaitForTransactionReceipt h t (Val rc)) ->
    status rc = 1 -> confirmed tr = true.
Proof.
  induction tr as [|ev tr IH]; intros h t rc Hl Hs; [discriminate Hl|].
  destruct tr as [|ev' tr'].
  - injection Hl as ->. unfold confirmed. cbn. rewrite Hs. reflexivity.
  - apply confirmed_later. exact (IH h t rc Hl Hs).
Qed.

Lemma last_event_cons :
  forall ev tr x, last_event tr = Some x -> last_event (ev :: tr) = Some x.
Proof. intros ev tr x H. apply (last_event_app [ev]). exact H. Qed.

Lemma last_event_wait_skip :
  forall ev tr h t r,
    is_route_event ev = true ->
    last_event (ev :: tr) = Some (EWaitForTransactionReceipt h t r) ->
    last_event tr = Some (EWaitForTransactionReceipt h t r).
Proof.
  intros ev tr h t r Hev H. destruct tr as [|x tr']; [|exact H].
  injection H as ->. discriminate Hev.
Qed.

Lemma dict_get_is_dict :
  forall data k v, dict_get data k = Val v -> exists d, data = PyDict d.
Proof. intros data k v H. destruct data; try discriminate H. eexists; reflexivity. Qed.

Lemma deploy_without_client :
  forall W RPC_URL (fs : filesystem W) p private_key constructor_args w,
    private_key <> "" -> p <> "" ->
    deploy_contract_backend RPC_URL fs None (Some p) private_key
                            constructor_args w =
    (Normal (error_dict
       (fstr ["Backend not connected to network. RPC_URL: "; str_opt RPC_URL])),
     w, []).
Proof.
  intros W RPC_URL fs p private_key constructor_args w Hk Hp.
  destruct private_key; [contradiction Hk; reflexivity|].
  destruct p; [contradiction Hp; reflexivity|]. reflexivity.
Qed.

(** One step through the route; the call of the pipeline is replaced by
    what [deploy_outcome] says about it. *)
Ltac route_step :=
  match goal with
  | |- context [match deploy_contract_backend ?u ?f ?i ?p ?k ?a ?w0 with _ => _ end] =>
      let F := fresh "F" in
      let G := fresh "G" in
      let r := fresh "r" in
      pose proof (deploy_outcome _ u f i p k a w0) as F;
      pose proof (deploy_trace_no_call _ u f i p k a w0) as G;
      cbv zeta in F; unfold result_of, trace_of in F, G;
      destruct (deploy_contract_backend u f i p k a w0) as [[r ?] ?];
      cbn [fst snd] in F, G;
      destruct r as [?|?|?];
      [ destruct F as [(? & ? & -> & ? & ?) | (? & -> & ? & ?)]
      | contradiction F
      | ]
  | _ => case_step
  end.

Ltac route_cases :=
  unfold result_of, trace_of, deploy_token, py_function, bind, lift, log, call,
    ret, py_return, py_raise;
  rewrite ?to_wei_0_01_ether;
  repeat (cbv beta iota zeta;
          first [ progress rewrite ?py_in_address, ?subscript_address,
                    ?py_in_error, ?get_error
                | route_step ]);
  cbv beta iota zeta; cbn [fst snd app]; rewrite ?app_nil_r.


(** X15.  A body that is falsy in Python, such as [{}], [[]], [0] or
    [null], is answered 400 "Invalid JSON" before anything is called. *)
Theorem route_falsy_body :
  forall W RPC_URL (fs : filesystem W) PRIVATE_KEY CONTRACT_ARTIFACT_PATH
         FEE_RECIPIENT_ADDRESS w3 data w,
    truthy data = false ->
    deploy_token RPC_URL fs PRIVATE_KEY CONTRACT_ARTIFACT_PATH
                 FEE_RECIPIENT_ADDRESS w3 (Val data) w =
    (Normal (response (error_dict "Invalid JSON") 400), w, []).
Proof.
  intros until w. intros H.
  unfold deploy_token, py_function, bind, lift, ret, py_return.
  rewrite H. reflexivity.
Qed.

(** X16.  A non-empty object whose "name" or "symbol" is missing or falsy
    is answered 400 "Missing token name or symbol" before anything is
    called. *)
Theorem route_missing_fields :
  forall W RPC_URL (fs : filesystem W) PRIVATE_KEY CONTRACT_ARTIFACT_PATH
         FEE_RECIPIENT_ADDRESS w3 d name symbol w,
    d <> [] ->
    dict_get (PyDict d) "name" = Val name ->
    dict_get (PyDict d) "symbol" = Val symbol ->
    truthy name = false \/ truthy symbol = false ->
    deploy_token RPC_URL fs PRIVATE_KEY CONTRACT_ARTIFACT_PATH
                 FEE_RECIPIENT_ADDRESS w3 (Val (PyDict d)) w =
    (Normal (response (error_dict "Missing token name or symbol") 400), w, []).
Proof.
  intros until w. intros Hd Hn Hs Hf.
  unfold deploy_token, py_function, bind, lift, ret, py_return.
  rewrite Hn, Hs.
  destruct d; [contradiction Hd; reflexivity|].
  cbn [truthy negb]. cbv beta iota zeta.
  replace (negb (truthy name) || negb (truthy symbol)) with true
    by (destruct Hf as [-> | ->]; cbn [negb orb];
        [reflexivity | rewrite Bool.orb_true_r; reflexivity]).
  reflexivity.
Qed.

(** X17.  A truthy body that is not an object (a list, a string, a
    number) makes the handler raise [AttributeError] at [data.get]; nothing
    is called. *)
Theorem route_non_object_body :
  forall W RPC_URL (fs : filesystem W) PRIVATE_KEY CONTRACT_ARTIFACT_PATH
         FEE_RECIPIENT_ADDRESS w3 data w,
    truthy data = true ->
    (forall d, data <> PyDict d) ->
    deploy_token RPC_URL fs PRIVATE_KEY CONTRACT_ARTIFACT_PATH
                 FEE_RECIPIENT_ADDRESS w3 (Val data) w =
    (Raise (mk_exn AttributeError
              (fstr ["'"; type_name data; "' object has no attribute 'get'"])),
     w, []).
Proof.
  intros until w. intros Ht Hd.
  unfold deploy_token, py_function, bind, lift, ret, py_return, py_raise.
  rewrite Ht. cbn [negb]. cbv beta iota zeta.
  destruct data; try reflexivity.
  contradiction (Hd d). reflexivity.
Qed.

(** X18.  With a well-formed request but no fee recipient configured the
    answer is 500 with the configuration error, and neither the node nor the
    pipeline is called. *)
Theorem route_fee_recipient_unset :
  forall W RPC_URL (fs : filesystem W) PRIVATE_KEY CONTRACT_ARTIFACT_PATH
         FEE_RECIPIENT_ADDRESS w3 data name symbol w,
    truthy data = true ->
    dict_get data "name" = Val name ->
    dict_get data "symbol" = Val symbol ->
    truthy name = true -> truthy symbol = true ->
    FEE_RECIPIENT_ADDRESS = None \/ FEE_RECIPIENT_ADDRESS = Some "" ->
    deploy_token RPC_URL fs PRIVATE_KEY CONTRACT_ARTIFACT_PATH
                 FEE_RECIPIENT_ADDRESS w3 (Val data) w =
    (Normal (response
       (error_dict "Backend configuration error: Fee recipient address not set.")
       500), w, []).
Proof.
  intros until w. intros Ht Hn Hs Htn Hts Hfee.
  unfold deploy_token, py_function, bind, lift, ret, py_return.
  rewrite Ht, Hn, Hs, Htn, Hts.
  destruct Hfee as [-> | ->]; reflexivity.
Qed.





Lemma dict_get_truthy :
  forall d k v, dict_get (PyDict d) k = Val v -> truthy v = true ->
                dict_lookup k d = Some v.
Proof.
  intros d k v H Ht. cbn in H. destruct (dict_lookup k d).
  - injection H as ->. reflexivity.
  - injection H as <-. discriminate Ht.
Qed.

Lemma filter_none :
  forall (p : event -> bool) tr,
    Forall (fun ev => p ev = false) tr -> filter p tr = [].
Proof.
  induction 1 as [|ev tr Hev _ IH]; [reflexivity|].
  cbn. rewrite Hev. exact IH.
Qed.


(** X24.  Without a client ([w3] is [None]) a request that reaches the
    pipeline is answered 500 with the not-connected error quoting
    [RPC_URL], and nothing outside the process is called. *)
Theorem route_without_client :
  forall W RPC_URL (fs : filesystem W) PRIVATE_KEY p FEE_RECIPIENT_ADDRESS
         request_json w path key args,
    let run := deploy_token RPC_URL fs PRIVATE_KEY (Some p)
                            FEE_RECIPIENT_ADDRESS None request_json w in
    PRIVATE_KEY <> "" -> p <> "" ->
    In (ECallDeploy path key args) (trace_of run) ->
    run =
    (Normal (response
       (error_dict
          (fstr ["Backend not connected to network. RPC_URL: "; str_opt RPC_URL]))
       500),
     w, [ECallDeploy (Some p) PRIVATE_KEY args]).
Proof.
  intros until args. intros run Hk Hp. subst run.
  unfold trace_of, deploy_token, py_function, bind, lift, log, call, ret,
    py_return, py_raise.
  repeat (cbv beta iota zeta;
          first [ progress rewrite ?py_in_error, ?get_error
                | rewrite deploy_without_client by assumption
                | case_step ]).
  all: cbv beta iota zeta; cbn [fst snd app].
  all: intros HC; cbn [In] in HC; try contradiction HC.
  all: destruct HC as [HC|HC]; [|contradiction HC].
  all: injection HC as <- <- <-; reflexivity.
Qed.


(** ** The further properties on a scripted node *)

(** Witness of X1. *)
Lemma unset_path_no_calls_witness :
  "0xkey" <> "" /\
  ((None : option string) = None \/ (None : option string) = Some "") /\
  Script.run_at Script.healthy (Val Script.artifact) None "0xkey" =
  (Normal (error_dict "CONTRACT_ARTIFACT_PATH environment variable not set."),
   tt, []).
Proof.
  split; [discriminate|]. split; [left; reflexivity|].
  apply (unset_path_no_calls unit (Some "http://rpc")
           (Script.disk "Token.json" (Val Script.artifact))
           (Some (Script.node Script.healthy)) None "0xkey" Script.args tt).
  - discriminate.
  - left; reflexivity.
Defined.

(** Witness of X2: the client reports not connected. *)
Lemma not_connected_report_witness :
  let a := Script.with_connected (Val false) Script.healthy in
  let run := Script.run a (Val Script.artifact) "0xkey" in
  is_connected (Script.node a) tt = (Val false, tt) /\
  result_of run =
    Normal (error_dict "Backend not connected to network. RPC_URL: http://rpc") /\
  Forall (fun ev => is_connect_check ev = true) (trace_of run) /\
  (count is_connect_check (trace_of run) <= 1)%nat.
Proof.
  split; [reflexivity|].
  apply (not_connected_report unit (Some "http://rpc")
           (Script.disk "Token.json" (Val Script.artifact))
           (Some (Script.node (Script.with_connected (Val false) Script.healthy)))
           "Token.json" "0xkey" Script.args tt).
  - discriminate.
  - discriminate.
  - right. exists (Script.node (Script.with_connected (Val false) Script.healthy)), tt.
    split; reflexivity.
Defined.



(** Witness of X5: an artifact with "abi" but without "bytecode". *)
Lemma artifact_field_missing_witness :
  let j := PyDict [("abi", PyList [])] in
  let e := mk_exn KeyError "'bytecode'" in
  let run := Script.run Script.healthy (Val j) "0xkey" in
  In (EOpenJsonLoad "Token.json" (Val j)) (trace_of run) /\
  ((exists abi, subscript j "abi" = Val abi) /\ subscript j "bytecode" = Exc e) /\
  (result_of run = Normal (unexpected e) /\
   last_event (trace_of run) = Some (EOpenJsonLoad "Token.json" (Val j))).
Proof.
  split; [vm_compute; tauto|].
  split; [split; [eexists; reflexivity | reflexivity]|].
  apply (artifact_field_missing unit (Some "http://rpc")
           (Script.disk "Token.json" (Val (PyDict [("abi", PyList [])])))
           (Some (Script.node Script.healthy))
           (Some "Token.json") "0xkey" Script.args tt
           "Token.json" (PyDict [("abi", PyList [])])
           (mk_exn KeyError "'bytecode'")).
  - vm_compute; tauto.
  - right. split; [eexists; reflexivity | reflexivity].
Defined.









(** Witness of X15: the empty object. *)
Lemma route_falsy_body_witness :
  truthy (PyDict []) = false /\
  Script.serve (Some (Script.node Script.healthy)) (Val (PyDict [])) =
  (Normal (response (error_dict "Invalid JSON") 400), tt, []).
Proof.
  split; [reflexivity|].
  apply (route_falsy_body unit (Some "http://rpc")
           (Script.disk "Token.json" (Val Script.artifact))
           "0xkey" (Some "Token.json") (Some "0xFEE")
           (Some (Script.node Script.healthy)) (PyDict []) tt).
  reflexivity.
Defined.

(** Witness of X16: a request with an empty symbol. *)
Lemma route_missing_fields_witness :
  let d := [("name", PyStr "Token"); ("symbol", PyStr "")] in
  d <> [] /\
  dict_get (PyDict d) "name" = Val (PyStr "Token") /\
  dict_get (PyDict d) "symbol" = Val (PyStr "") /\
  (truthy (PyStr "Token") = false \/ truthy (PyStr "") = false) /\
  Script.serve (Some (Script.node Script.healthy)) (Val (PyDict d)) =
  (Normal (response (error_dict "Missing token name or symbol") 400), tt, []).
Proof.
  split; [discriminate|]. split; [reflexivity|]. split; [reflexivity|].
  split; [right; reflexivity|].
  apply (route_missing_fields unit (Some "http://rpc")
           (Script.disk "Token.json" (Val Script.artifact))
           "0xkey" (Some "Token.json") (Some "0xFEE")
           (Some (Script.node Script.healthy))
           [("name", PyStr "Token"); ("symbol", PyStr "")]
           (PyStr "Token") (PyStr "") tt).
  - discriminate.
  - reflexivity.
  - reflexivity.
  - right; reflexivity.
Defined.

(** Witness of X17: a list as body. *)
Lemma route_non_object_body_witness :
  let data := PyList [PyStr "Token"; PyStr "TKN"] in
  truthy data = true /\
  (forall d, data <> PyDict d) /\
  Script.serve (Some (Script.node Script.healthy)) (Val data) =
  (Raise (mk_exn AttributeError "'list' object has no attribute 'get'"), tt, []).
Proof.
  split; [reflexivity|]. split; [intros d; discriminate|].
  apply (route_non_object_body unit (Some "http://rpc")
           (Script.disk "Token.json" (Val Script.artifact))
           "0xkey" (Some "Token.json") (Some "0xFEE")
           (Some (Script.node Script.healthy))
           (PyList [PyStr "Token"; PyStr "TKN"]) tt).
  - reflexivity.
  - intros d; discriminate.
Defined.

(** Witness of X18. *)
Lemma route_fee_recipient_unset_witness :
  truthy Script.request = true /\
  dict_get Script.request "name" = Val (PyStr "Token") /\
  dict_get Script.request "symbol" = Val (PyStr "TKN") /\
  truthy (PyStr "Token") = true /\ truthy (PyStr "TKN") = true /\
  ((None : option string) = None \/ (None : option string) = Some "") /\
  Script.serve_with None (Some (Script.node Script.healthy)) (Val Script.request) =
  (Normal (response
     (error_dict "Backend configuration error: Fee recipient address not set.")
     500), tt, []).
Proof.
  repeat (split; [reflexivity|]). split; [left; reflexivity|].
  apply (route_fee_recipient_unset unit (Some "http://rpc")
           (Script.disk "Token.json" (Val Script.artifact))
           "0xkey" (Some "Token.json") None
           (Some (Script.node Script.healthy))
           Script.request (PyStr "Token") (PyStr "TKN") tt).
  - reflexivity.
  - reflexivity.
  - reflexivity.
  - reflexivity.
  - reflexivity.
  - left; reflexivity.
Defined.






(** Witness of X24. *)
Lemma route_without_client_witness :
  let run := Script.serve None (Val Script.request) in
  let args := [PyStr "Token"; PyStr "TKN"; PyInt (10 ^ 16); PyStr "0xFEE"] in
  "0xkey" <> "" /\ "Token.json" <> "" /\
  In (ECallDeploy (Some "Token.json") "0xkey" args) (trace_of run) /\
  run =
  (Normal (response
     (error_dict "Backend not connected to network. RPC_URL: http://rpc") 500),
   tt, [ECallDeploy (Some "Token.json") "0xkey" args]).
Proof.
  split; [discriminate|]. split; [discriminate|]. split; [vm_compute; tauto|].
  apply (route_without_client unit (Some "http://rpc")
           (Script.disk "Token.json" (Val Script.artifact))
           "0xkey" "Token.json" (Some "0xFEE") (Val Script.request) tt
           (Some "Token.json") "0xkey"
           [PyStr "Token"; PyStr "TKN"; PyInt (10 ^ 16); PyStr "0xFEE"]).
  - discriminate.
  - discriminate.
  - vm_compute; tauto.
Defined.
